(** * Registry-based factory of query runners

    A shallow embedding of the two Python modules of the repository:

    - [src/abstract_factory/abstract_factory.py]: the abstract base class
      [QueryRunner], three stub runners, and [AbstractFactory], whose
      class-level dictionary [_runners] is filled statically, by entry-point
      discovery in [__init__], and by the class method [register_runner];
    - [src/abstract_factory.py]: the closed variant [QueryRunnerFactory],
      which dispatches on the name with an [if]/[elif] chain.

    Python code is embedded as state-passing functions over an explicit
    [world]; a raised exception is the [Raise] outcome and keeps the state
    reached so far. *)

From Stdlib Require Import ZArith.
From stdpp Require Import base option strings list gmap.

Open Scope string_scope.
Open Scope list_scope.
Set Warnings "-register-all".

(** ** The fragment of the Python runtime the modules rely on *)

(** JSON-like data: the configuration payload and the values returned by
    [get_number] ([None] for a body that is just [pass]). Floats do not
    occur in the sources and are left out. *)
Inductive pydata :=
| PyNone
| PyBool (b : bool)
| PyInt (z : Z)
| PyStr (s : string)
| PyList (items : list pydata)
| PyDict (items : list (string * pydata)).

(** [configuration: tg.Dict], a dictionary with string keys. *)
Abbreviation configuration := (gmap string pydata).

(** Exception classes. [SystemExit], [KeyboardInterrupt] and [GeneratorExit]
    derive from [BaseException] only, all the others from [Exception]. *)
Inductive exn_class :=
| ValueError
| TypeError
| ImportError
| AttributeError
| OtherException (name : string)
| SystemExit
| KeyboardInterrupt
| GeneratorExit.

Record exn := Exn { exn_cls : exn_class; exn_msg : string }.

(** [isinstance(e, Exception)], what [except Exception] tests. *)
Definition is_Exception (e : exn) : bool :=
  match exn_cls e with
  | SystemExit | KeyboardInterrupt | GeneratorExit => false
  | _ => true
  end.

(** [str(e)] for an exception built from one message. *)
Definition str_exn (e : exn) : string := exn_msg e.

Inductive outcome (A : Type) :=
| Return (a : A)
| Raise (e : exn).
Arguments Return {A} a.
Arguments Raise {A} e.

Definition is_Return {A} (o : outcome A) : bool :=
  match o with Return _ => true | Raise _ => false end.

(** ** Classes *)

(** What an overriding [__new__] gives back instead of a new object: the
    one instance the class keeps, known by its identity, or an object that
    is no instance of the class. *)
Inductive new_result :=
| NewCached (id : nat)
| NewOther (d : pydata).

(** What a class statement of a plugin or of a caller contributes: an
    optional definition of [get_number] (which may fail and may update the
    dictionary it is given); an optional [__init__], represented by the
    outcome of running it with no argument besides [self]; an optional
    [__new__]; and whether, by the time the factory tests the class, it
    has been passed to [register], the [ABCMeta] method that declares a
    virtual subclass, of [QueryRunner] or of a class inheriting from it. *)
Record class_body := ClassBody {
  def_get_number : option (configuration → outcome pydata * configuration);
  def_init : option (outcome unit);
  def_new : option new_result;
  def_registered : bool
}.

(** Class objects: [object], the four classes of the module, and classes
    defined elsewhere by single inheritance. *)
Inductive pyclass :=
| PyObject
| QueryRunner
| MongoDBRunner
| MySQLRunner
| BigQueryRunner
| UserClass (name : string) (base : pyclass) (body : class_body).

(** A method found by attribute lookup along the bases. *)
Inductive method :=
| AbstractMethod
| ConcreteMethod (f : configuration → outcome pydata * configuration).

(** Python objects that can reach the factory: plain data, class objects,
    and instances, which carry their identity. *)
Inductive pyobj :=
| Data (d : pydata)
| Class (c : pyclass)
| Instance (id : nat) (c : pyclass).

(** [c] is [QueryRunner] or inherits from it. *)
Fixpoint inherits_QueryRunner (c : pyclass) : bool :=
  match c with
  | QueryRunner | MongoDBRunner | MySQLRunner | BigQueryRunner => true
  | PyObject => false
  | UserClass _ base _ => inherits_QueryRunner base
  end.

(** [c], or a class it inherits from, has been declared a virtual
    subclass with [register]. *)
Fixpoint registered_virtual (c : pyclass) : bool :=
  match c with
  | UserClass _ base body => def_registered body || registered_virtual base
  | _ => false
  end.

(** [issubclass(v, QueryRunner)]: a [TypeError] when [v] is not a class;
    for a class, [ABCMeta.__subclasscheck__] accepts what inherits from
    [QueryRunner] and what is a virtual subclass. *)
Definition issubclass_QueryRunner (v : pyobj) : outcome bool :=
  match v with
  | Class c => Return (inherits_QueryRunner c || registered_virtual c)
  | _ => Raise (Exn TypeError "issubclass() arg 1 must be a class")
  end.

(** Lookup of the attribute [get_number] on a class. The one of
    [QueryRunner] is decorated with [abstractmethod]. *)
Fixpoint find_get_number (c : pyclass) : option method :=
  match c with
  | PyObject => None
  | QueryRunner => Some AbstractMethod
  | MongoDBRunner => Some (ConcreteMethod (λ configuration, (Return (PyInt 1), configuration)))
  | MySQLRunner => Some (ConcreteMethod (λ configuration, (Return (PyInt 2), configuration)))
  | BigQueryRunner => Some (ConcreteMethod (λ configuration, (Return (PyInt 3), configuration)))
  | UserClass _ base body =>
      match def_get_number body with
      | Some f => Some (ConcreteMethod f)
      | None => find_get_number base
      end
  end.

(** A class created by [ABCMeta] is abstract while an abstract method is
    not overridden. *)
Definition is_abstract (c : pyclass) : bool :=
  match find_get_number c with
  | Some AbstractMethod => true
  | _ => false
  end.

(** The [__name__] of a class. *)
Definition class_name (c : pyclass) : string :=
  match c with
  | PyObject => "object"
  | QueryRunner => "QueryRunner"
  | MongoDBRunner => "MongoDBRunner"
  | MySQLRunner => "MySQLRunner"
  | BigQueryRunner => "BigQueryRunner"
  | UserClass name _ _ => name
  end.

(** The own or inherited [__new__], if one overrides [object.__new__]. *)
Fixpoint find_new (c : pyclass) : option new_result :=
  match c with
  | UserClass _ base body =>
      match def_new body with
      | Some r => Some r
      | None => find_new base
      end
  | _ => None
  end.

(** Outcome of the inherited or own [__init__] called without arguments. *)
Fixpoint run_init (c : pyclass) : outcome unit :=
  match c with
  | UserClass _ base body =>
      match def_init body with
      | Some o => o
      | None => run_init base
      end
  | _ => Return tt
  end.

(** ** The state and the monad *)

(** [_runners] is the one dictionary bound to the class attribute
    [AbstractFactory._runners]; [stdout] collects what [print] writes;
    [next_id] is the identity the next allocated object receives. *)
Record world := World {
  _runners : gmap string pyobj;
  stdout : list string;
  next_id : nat
}.

Definition M (A : Type) : Type := world → outcome A * world.

Definition ret {A} (a : A) : M A := λ w, (Return a, w).
Definition raise {A} (e : exn) : M A := λ w, (Raise e, w).
Definition bind {A B} (m : M A) (k : A → M B) : M B :=
  λ w, match m w with
       | (Return a, w') => k a w'
       | (Raise e, w') => (Raise e, w')
       end.
Definition lift {A} (o : outcome A) : M A := λ w, (o, w).

Declare Scope py_scope.
Delimit Scope py_scope with py.
Notation "'do' x <- m ; k" := (bind m (λ x, k))
  (at level 10, x name, m at level 100, k at level 200) : py_scope.
Open Scope py_scope.

(** [try: body / except Exception as e: handler e]. *)
Definition try_except_Exception {A} (body : M A) (handler : exn → M A) : M A :=
  λ w, match body w with
       | (Return a, w') => (Return a, w')
       | (Raise e, w') => if is_Exception e then handler e w' else (Raise e, w')
       end.

(** [print(s)]. *)
Definition print (s : string) : M unit :=
  λ w, (Return tt, World (_runners w) (stdout w ++ [s]) (next_id w)).

(** [cls._runners[name] = runner_class], an update in place of the shared
    dictionary. *)
Definition setitem_runners (name : string) (runner_class : pyobj) : M unit :=
  λ w, (Return tt, World (<[name := runner_class]> (_runners w)) (stdout w) (next_id w)).

(** [d.get(name)]: [None] for a missing key. *)
Definition dict_get (d : gmap string pyobj) (name : string) : pyobj :=
  default (Data PyNone) (d !! name).

(** A new object identity. *)
Definition alloc : M nat :=
  λ w, (Return (next_id w), World (_runners w) (stdout w) (S (next_id w))).

(** [x is None]. *)
Definition is_None (v : pyobj) : bool :=
  match v with Data PyNone => true | _ => false end.

(** [c()], that is [type.__call__]: [__new__] gives the object, and
    [__init__] runs on it when it is an instance of [c]. [object.__new__]
    refuses an abstract class and otherwise allocates. The message of the
    refusal is the one of Python 3.9 to 3.11; other versions word it
    differently. *)
Definition instantiate (c : pyclass) : M pyobj :=
  match find_new c with
  | None =>
      if is_abstract c
      then raise (Exn TypeError ("Can't instantiate abstract class " +:+ class_name c
                                 +:+ " with abstract method get_number"))
      else do id <- alloc; do _ <- lift (run_init c); ret (Instance id c)
  | Some (NewCached id) => do _ <- lift (run_init c); ret (Instance id c)
  | Some (NewOther d) => ret (Data d)
  end.

(** [v()] for an arbitrary object. *)
Definition call (v : pyobj) : M pyobj :=
  match v with
  | Class c => instantiate c
  | _ => raise (Exn TypeError "object is not callable")
  end.

(** [inst.get_number(configuration)]; the second component is the
    dictionary after the call. *)
Definition call_get_number (inst : pyobj) (configuration : configuration)
  : outcome pydata * gmap string pydata :=
  match inst with
  | Instance _ c =>
      match find_get_number c with
      | Some (ConcreteMethod f) => f configuration
      | Some AbstractMethod => (Return PyNone, configuration)
      | None => (Raise (Exn AttributeError "object has no attribute 'get_number'"), configuration)
      end
  | _ => (Raise (Exn AttributeError "object has no attribute 'get_number'"), configuration)
  end.

(** ** [src/abstract_factory/abstract_factory.py] *)

(** An entry point of the group ['query_runners'], as [iter_entry_points]
    yields it: its name and the outcome of [entry_point.load()]. *)
Record entry_point := EntryPoint {
  ep_name : string;
  ep_load : outcome pyobj
}.

(** An object as a method receives it in [self]: its identity and the
    entry [_runners] of its own namespace ([self.__dict__]), if it has
    one. *)
Record receiver := Self {
  self_id : nat;
  self_runners : option (gmap string pyobj)
}.

(** The attribute access [self._runners]: the entry of the object's own
    namespace comes first, the class attribute [AbstractFactory._runners]
    second. *)
Definition getattr_runners (self : receiver) : M (gmap string pyobj) :=
  λ w, (Return (default (_runners w) (self_runners self)), w).

(** An [AbstractFactory] object. [__init__] assigns no attribute and no
    method assigns [self._runners], so its own namespace is empty. *)
Record AbstractFactory := Factory { factory_id : nat }.

Definition as_receiver (f : AbstractFactory) : receiver :=
  Self (factory_id f) None.

(** The class body's [_runners = {...}]. *)
Definition default_runners : gmap string pyobj :=
  <["bigquery" := Class BigQueryRunner]>
    (<["mysql" := Class MySQLRunner]>
       (<["mongodb" := Class MongoDBRunner]> ∅)).

(** The state once the module is imported. *)
Definition initial_world : world := World default_runners [] 0.

(** The body of the [for] loop of [_load_external_runners]. The method
    runs on the object that [__init__] received, whose [self._runners] is
    the class dictionary ([as_receiver]), so the item assignment updates
    that dictionary in place. *)
Definition load_entry_point (self : AbstractFactory) (entry_point : entry_point) : M unit :=
  try_except_Exception
    (do runner_class <- lift (ep_load entry_point);
     do b <- lift (issubclass_QueryRunner runner_class);
     if b : bool then setitem_runners (ep_name entry_point) runner_class else ret tt)
    (λ e, print ("Error loading runner " +:+ ep_name entry_point +:+ ": " +:+ str_exn e)).

(** [_load_external_runners], over the entry points that
    [iter_entry_points(group='query_runners')] enumerates. *)
Fixpoint _load_external_runners (self : AbstractFactory)
    (entry_points : list entry_point) : M unit :=
  match entry_points with
  | [] => ret tt
  | entry_point :: rest =>
      do _ <- load_entry_point self entry_point;
      _load_external_runners self rest
  end.

(** [AbstractFactory()]: a new object, then [__init__]. *)
Definition AbstractFactory_new (entry_points : list entry_point) : M AbstractFactory :=
  do id <- alloc;
  do _ <- _load_external_runners (Factory id) entry_points;
  ret (Factory id).

(** The body of [get_dao], for any receiver. *)
Definition get_dao_of (self : receiver) (runner_name : string) : M pyobj :=
  do runners <- getattr_runners self;
  let runner_class := dict_get runners runner_name in
  if is_None runner_class
  then raise (Exn ValueError ("Unknown query runner: " +:+ runner_name))
  else call runner_class.

(** [get_dao] on an [AbstractFactory] object. *)
Definition get_dao (self : AbstractFactory) (runner_name : string) : M pyobj :=
  get_dao_of (as_receiver self) runner_name.

(** The class method [register_runner]. *)
Definition register_runner (name : string) (runner_class : pyobj) : M unit :=
  do b <- lift (issubclass_QueryRunner runner_class);
  if negb b
  then raise (Exn TypeError "Runner class must inherit from QueryRunner")
  else setitem_runners name runner_class.

(** ** Sequences of calls on the factory class *)

(** The calls a program can make, in any order, after importing the
    module. A caller that catches an exception goes on in the state the
    failed call left. *)
Inductive op :=
| OpConstruct (entry_points : list entry_point)
| OpRegister (name : string) (runner_class : pyobj)
| OpGetDao (self : AbstractFactory) (runner_name : string).

Definition run_op (o : op) (w : world) : world :=
  match o with
  | OpConstruct entry_points => (AbstractFactory_new entry_points w).2
  | OpRegister name runner_class => (register_runner name runner_class w).2
  | OpGetDao self runner_name => (get_dao self runner_name w).2
  end.

Definition run_ops (ops : list op) (w : world) : world :=
  foldl (λ w o, run_op o w) w ops.


(** ** The Runner contract *)

(** The class creates its objects with [object.__new__]. *)
Definition default_new (c : pyclass) : bool :=
  match find_new c with None => true | Some _ => false end.

(** The docstring of [QueryRunner]: a concrete implementation inherits
    from the class and implements [get_number]; as a constructor it is
    called without arguments and has to produce a new instance. *)
Definition satisfies_runner_contract (c : pyclass) : bool :=
  inherits_QueryRunner c && negb (is_abstract c) && is_Return (run_init c)
  && default_new c.

(** The instance has a [get_number] that can be invoked. *)
Definition has_get_number (inst : pyobj) : bool :=
  match inst with
  | Instance _ c =>
      match find_get_number c with
      | Some (ConcreteMethod _) => true
      | _ => false
      end
  | _ => false
  end.

(** Every value of the dictionary is a class inheriting from
    [QueryRunner], the test both writers of [_runners] make. *)
Definition registry_checked (reg : gmap string pyobj) : Prop :=
  ∀ name v, reg !! name = Some v → issubclass_QueryRunner v = Return true.

(** Two outcomes of [get_dao] that a caller cannot tell apart: the same
    exception, or instances answering [get_number] alike. *)
Definition same_behaviour (o1 o2 : outcome pyobj) : Prop :=
  match o1, o2 with
  | Return i1, Return i2 =>
      ∀ configuration : gmap string pydata,
        call_get_number i1 configuration = call_get_number i2 configuration
  | Raise e1, Raise e2 => e1 = e2
  | _, _ => False
  end.

(** ** Plugin discovery, entry by entry *)

(** The entry loads and passes [issubclass(runner_class, QueryRunner)]:
    the object it is registered with. *)
Definition accepted (ep : entry_point) : option pyobj :=
  match ep_load ep with
  | Return (Class c) =>
      if inherits_QueryRunner c || registered_virtual c then Some (Class c) else None
  | _ => None
  end.

(** What the [except] branch prints for the entry, if it is reached. *)
Definition diagnostic (ep : entry_point) : option string :=
  match ep_load ep with
  | Raise e => Some ("Error loading runner " +:+ ep_name ep +:+ ": " +:+ str_exn e)
  | Return (Class _) => None
  | Return _ =>
      Some ("Error loading runner " +:+ ep_name ep +:+ ": "
            +:+ "issubclass() arg 1 must be a class")
  end.

(** A failure of [load()] that [except Exception] catches. *)
Definition load_failure_caught (ep : entry_point) : bool :=
  match ep_load ep with
  | Raise e => is_Exception e
  | Return _ => true
  end.

(** The dictionary after registering, in order, the accepted entries. *)
Definition register_accepted (entry_points : list entry_point)
    (reg : gmap string pyobj) : gmap string pyobj :=
  foldl (λ reg ep, match accepted ep with
                   | Some cls => <[ep_name ep := cls]> reg
                   | None => reg
                   end) reg entry_points.

(** ** [src/abstract_factory.py] *)

Module QueryRunnerFactoryPy.

(** The concrete subclasses of the module's [QueryRunner]. *)
Inductive runner_class :=
| MongoDBQueryRunner
| MySQLQueryRunner
| BigQueryQueryRunner.

(** An instance, with its identity. *)
Record runner := Runner { runner_id : nat; runner_cls : runner_class }.

(** [get_number] of the three classes, with the dictionary after the
    call. *)
Definition get_number (self : runner) (configuration : gmap string pydata)
  : outcome pydata * gmap string pydata :=
  match runner_cls self with
  | MongoDBQueryRunner => (Return (PyInt 1), configuration)
  | MySQLQueryRunner => (Return (PyInt 2), configuration)
  | BigQueryQueryRunner => (Return (PyInt 3), configuration)
  end.

(** [QueryRunnerFactory.get_query_runner]; the state is the next free
    object identity. *)
Definition get_query_runner (name : string) (next : nat) : outcome runner * nat :=
  if String.eqb name "mongodb" then (Return (Runner next MongoDBQueryRunner), S next)
  else if String.eqb name "mysql" then (Return (Runner next MySQLQueryRunner), S next)
  else if String.eqb name "bigquery" then (Return (Runner next BigQueryQueryRunner), S next)
  else (Raise (Exn ValueError ("Invalid query runner name: " +:+ name +:+ ".")), next).

End QueryRunnerFactoryPy.

(** The dictionary of the usage example in the module docstring. *)
Definition example_configuration : gmap string pydata :=
  <["sql_statement" := PyStr "select count(*) as the_number from `orders`"]>
    (<["return_value" := PyStr "the_number"]> ∅).

(** ** Sample plugins *)

(** A plugin class as a separate package would ship it: it inherits from
    [QueryRunner] and overrides [get_number]. *)
Definition CouchDBRunner : pyclass :=
  UserClass "CouchDBRunner" QueryRunner
    (ClassBody (Some (λ configuration, (Return (PyInt 4), configuration)))
       None None false).

(** A class outside the hierarchy of [QueryRunner]. *)
Definition Unrelated : pyclass :=
  UserClass "Unrelated" PyObject (ClassBody None None None false).



Definition couchdb_plugin : entry_point :=
  EntryPoint "couchdb" (Return (Class CouchDBRunner)).

(** Its module cannot be imported. *)
Definition failing_plugin : entry_point :=
  EntryPoint "failing" (Raise (Exn ImportError "No module named 'missing'")).

(** Its module calls [sys.exit(1)] when imported. *)
Definition exiting_plugin : entry_point :=
  EntryPoint "exiting" (Raise (Exn SystemExit "1")).

(** It names a class that is no [QueryRunner]. *)
Definition unrelated_plugin : entry_point :=
  EntryPoint "unrelated" (Return (Class Unrelated)).

(** It names an object that is no class. *)
Definition number_plugin : entry_point :=
  EntryPoint "number" (Return (Data (PyInt 42))).

(** ** Notions used to compare runs *)

(** The name under which the loop registers the entry, if it does. *)
Definition accepted_name (ep : entry_point) : option string :=
  match accepted ep with
  | Some _ => Some (ep_name ep)
  | None => None
  end.

(** The names the loop writes to, one per accepted entry, in order. *)
Definition accepted_names (entry_points : list entry_point) : list string :=
  omap accepted_name entry_points.

(** An outcome of [get_dao] and an outcome of the closed factory's
    [get_query_runner] that a caller cannot tell apart: both raise the same
    class of exception, or both return runners answering [get_number]
    alike. *)
Definition agree (o1 : outcome pyobj) (o2 : outcome QueryRunnerFactoryPy.runner)
  : Prop :=
  match o1, o2 with
  | Return inst, Return runner =>
      ∀ configuration : gmap string pydata,
        call_get_number inst configuration
        = QueryRunnerFactoryPy.get_number runner configuration
  | Raise e1, Raise e2 => exn_cls e1 = exn_cls e2
  | _, _ => False
  end.

(** * Properties *)

(** ** The state and the monad *)

Lemma world_eta (w : world) : World (_runners w) (stdout w) (next_id w) = w.
Proof. by destruct w. Qed.

Lemma issubclass_true_inv (v : pyobj) :
  issubclass_QueryRunner v = Return true →
  ∃ c, v = Class c ∧ inherits_QueryRunner c || registered_virtual c = true.
Proof.
  destruct v as [d|c|i c]; simpl; intros H; try discriminate.
  exists c. split; [done|]. by injection H.
Qed.

Lemma issubclass_is_None (v : pyobj) :
  issubclass_QueryRunner v = Return true → is_None v = false.
Proof. intros (c & -> & _)%issubclass_true_inv. done. Qed.

Lemma inherits_issubclass (c : pyclass) :
  inherits_QueryRunner c = true → issubclass_QueryRunner (Class c) = Return true.
Proof. intros H. simpl. by rewrite H. Qed.

Lemma contract_inherits (c : pyclass) :
  satisfies_runner_contract c = true → inherits_QueryRunner c = true.
Proof.
  unfold satisfies_runner_contract.
  intros [[[H _]%andb_prop _]%andb_prop _]%andb_prop. exact H.
Qed.

Lemma contract_concrete (c : pyclass) :
  satisfies_runner_contract c = true → is_abstract c = false.
Proof.
  unfold satisfies_runner_contract.
  intros [[[_ H]%andb_prop _]%andb_prop _]%andb_prop. by apply negb_true_iff.
Qed.

Lemma contract_init (c : pyclass) :
  satisfies_runner_contract c = true → run_init c = Return tt.
Proof.
  unfold satisfies_runner_contract.
  intros [[_ H]%andb_prop _]%andb_prop.
  destruct (run_init c) as [[]|e]; [done|discriminate].
Qed.

Lemma contract_default_new (c : pyclass) :
  satisfies_runner_contract c = true → find_new c = None.
Proof.
  unfold satisfies_runner_contract, default_new.
  intros [_ H]%andb_prop. by destruct (find_new c).
Qed.

(** A class inheriting from [QueryRunner] always has a [get_number]
    attribute, abstract or not. *)
Lemma inherits_find_get_number (c : pyclass) :
  inherits_QueryRunner c = true → is_Some (find_get_number c).
Proof.
  induction c as [| | | | |name base IH body]; simpl; intros H; eauto; try discriminate.
  destruct (def_get_number body); eauto.
Qed.

Lemma contract_has_method (c : pyclass) :
  satisfies_runner_contract c = true →
  ∃ f, find_get_number c = Some (ConcreteMethod f).
Proof.
  intros H. pose proof (contract_concrete c H) as Ha.
  destruct (inherits_find_get_number c (contract_inherits c H)) as [m Hm].
  unfold is_abstract in Ha. rewrite Hm in Ha.
  destruct m as [|f]; [discriminate|]. by exists f.
Qed.

(** ** Instantiation and lookup *)

Lemma instantiate_contract (c : pyclass) (w : world) :
  satisfies_runner_contract c = true →
  instantiate c w
  = (Return (Instance (next_id w) c),
     World (_runners w) (stdout w) (S (next_id w))).
Proof.
  intros H. unfold instantiate.
  rewrite (contract_default_new c H), (contract_concrete c H).
  unfold bind, alloc, lift, ret. by rewrite (contract_init c H).
Qed.


(** [instantiate] leaves the dictionary and the output alone. *)
Lemma instantiate_runners (c : pyclass) (w : world) :
  _runners (instantiate c w).2 = _runners w ∧ stdout (instantiate c w).2 = stdout w.
Proof.
  unfold instantiate. destruct (find_new c) as [[id|d]|].
  - unfold bind, lift, ret. by destruct (run_init c).
  - done.
  - destruct (is_abstract c); [done|].
    unfold bind, alloc, lift, ret; simpl. by destruct (run_init c).
Qed.



Ltac unfold_get_dao :=
  unfold get_dao, get_dao_of, as_receiver, getattr_runners, dict_get, bind;
  cbn [self_runners default fst snd].

Lemma get_dao_registered (self : AbstractFactory) (name : string) (c : pyclass)
    (w : world) :
  _runners w !! name = Some (Class c) →
  get_dao self name w = instantiate c w.
Proof. intros H. unfold_get_dao. by rewrite H. Qed.

Lemma get_dao_missing (self : AbstractFactory) (name : string) (w : world) :
  _runners w !! name = None →
  get_dao self name w = (Raise (Exn ValueError ("Unknown query runner: " +:+ name)), w).
Proof. intros H. unfold_get_dao. by rewrite H. Qed.

(** [get_dao] never writes to [_runners]. *)
Lemma get_dao_runners (self : AbstractFactory) (name : string) (w : world) :
  _runners (get_dao self name w).2 = _runners w.
Proof.
  unfold_get_dao.
  destruct (_runners w !! name) as [[d|c|i c]|]; try done.
  - by destruct d.
  - apply instantiate_runners.
Qed.

(** The outcome of [get_dao] depends on the binding of the requested name
    only, up to the identity given to a new instance. *)
Lemma get_dao_depends_on_binding (self1 self2 : AbstractFactory) (name : string)
    (w1 w2 : world) :
  _runners w1 !! name = _runners w2 !! name →
  same_behaviour (get_dao self1 name w1).1 (get_dao self2 name w2).1.
Proof.
  intros Heq. unfold_get_dao. rewrite Heq.
  destruct (_runners w2 !! name) as [[d|c|i c]|]; try done.
  - by destruct d.
  - simpl. unfold instantiate. destruct (find_new c) as [[id|d]|].
    + unfold bind, lift, ret. by destruct (run_init c).
    + done.
    + destruct (is_abstract c); [done|].
      unfold bind, alloc, lift, ret; simpl.
      destruct (run_init c); simpl; done.
Qed.

Lemma get_dao_same_behaviour (self1 self2 : AbstractFactory) (name : string)
    (w1 w2 : world) :
  _runners w1 = _runners w2 →
  same_behaviour (get_dao self1 name w1).1 (get_dao self2 name w2).1.
Proof. intros Heq. apply get_dao_depends_on_binding. by rewrite Heq. Qed.

(** ** Registration *)

Lemma register_runner_accepts (name : string) (v : pyobj) (w : world) :
  issubclass_QueryRunner v = Return true →
  register_runner name v w
  = (Return tt, World (<[name := v]> (_runners w)) (stdout w) (next_id w)).
Proof. intros H. unfold register_runner, bind, lift. by rewrite H. Qed.

Lemma register_runner_rejects (name : string) (v : pyobj) (w : world) :
  issubclass_QueryRunner v ≠ Return true →
  ∃ msg, register_runner name v w = (Raise (Exn TypeError msg), w).
Proof.
  intros H. unfold register_runner, bind, lift.
  destruct v as [d|c|i c]; simpl in *; eauto.
  destruct (inherits_QueryRunner c || registered_virtual c); [done|]. simpl. eauto.
Qed.

(** ** Plugin discovery *)

Lemma accepted_checked (ep : entry_point) (cls : pyobj) :
  accepted ep = Some cls →
  ep_load ep = Return cls ∧ issubclass_QueryRunner cls = Return true.
Proof.
  unfold accepted. destruct (ep_load ep) as [[d|c|i c]|e]; try discriminate.
  destruct (inherits_QueryRunner c || registered_virtual c) eqn:Hc; [|discriminate].
  intros [= <-]. simpl. by rewrite Hc.
Qed.

(** One round of the loop, on an entry that passes the test. *)
Lemma load_entry_point_accepted (self : AbstractFactory) (ep : entry_point)
    (cls : pyobj) (w : world) :
  accepted ep = Some cls →
  load_entry_point self ep w
  = (Return tt, World (<[ep_name ep := cls]> (_runners w)) (stdout w) (next_id w)).
Proof.
  intros [Hl Hs]%accepted_checked.
  unfold load_entry_point, try_except_Exception, bind, lift.
  by rewrite Hl, Hs.
Qed.

(** One round of the loop, on an entry that is skipped: the dictionary is
    as before and the diagnostic, if any, is printed. *)
Lemma load_entry_point_skipped (self : AbstractFactory) (ep : entry_point)
    (w : world) :
  accepted ep = None →
  load_failure_caught ep = true →
  load_entry_point self ep w
  = (Return tt,
     World (_runners w) (stdout w ++ option_list (diagnostic ep)) (next_id w)).
Proof.
  unfold accepted, load_failure_caught, diagnostic.
  unfold load_entry_point, try_except_Exception, bind, lift.
  destruct (ep_load ep) as [[d|c|i c]|e]; simpl.
  - done.
  - destruct (inherits_QueryRunner c || registered_virtual c); [discriminate|].
    intros _ _. unfold ret. by rewrite app_nil_r, world_eta.
  - done.
  - intros _ ->. done.
Qed.

(** One round of the loop, on an entry whose [load()] raises outside
    [Exception]: the exception leaves the loop. *)
Lemma load_entry_point_escapes (self : AbstractFactory) (ep : entry_point)
    (w : world) :
  load_failure_caught ep = false →
  ∃ e, ep_load ep = Raise e ∧ load_entry_point self ep w = (Raise e, w).
Proof.
  unfold load_failure_caught.
  unfold load_entry_point, try_except_Exception, bind, lift.
  destruct (ep_load ep) as [v|e]; [discriminate|].
  intros ->. eauto.
Qed.

(** Whatever the entry, the round writes [_runners] only to register an
    accepted class. *)
Lemma load_entry_point_runners (self : AbstractFactory) (ep : entry_point)
    (w : world) :
  _runners (load_entry_point self ep w).2
  = match accepted ep with
    | Some cls => <[ep_name ep := cls]> (_runners w)
    | None => _runners w
    end.
Proof.
  destruct (accepted ep) as [cls|] eqn:Ha.
  - by rewrite (load_entry_point_accepted self ep cls w Ha).
  - destruct (load_failure_caught ep) eqn:Hc.
    + by rewrite (load_entry_point_skipped self ep w Ha Hc).
    + destruct (load_entry_point_escapes self ep w Hc) as (e & _ & ->). done.
Qed.

Lemma register_accepted_cons (ep : entry_point) (eps : list entry_point)
    (reg : gmap string pyobj) :
  register_accepted (ep :: eps) reg
  = register_accepted eps
      (match accepted ep with
       | Some cls => <[ep_name ep := cls]> reg
       | None => reg
       end).
Proof. done. Qed.

Lemma register_accepted_app (eps1 eps2 : list entry_point)
    (reg : gmap string pyobj) :
  register_accepted (eps1 ++ eps2) reg
  = register_accepted eps2 (register_accepted eps1 reg).
Proof. unfold register_accepted. apply foldl_app. Qed.

(** A name that no accepted entry carries keeps its binding. *)
Lemma register_accepted_other (eps : list entry_point) (reg : gmap string pyobj)
    (name : string) :
  (∀ ep, ep ∈ eps → is_Some (accepted ep) → ep_name ep ≠ name) →
  register_accepted eps reg !! name = reg !! name.
Proof.
  revert reg. induction eps as [|ep eps IH]; intros reg H; [done|].
  rewrite register_accepted_cons, IH.
  - destruct (accepted ep) as [cls|] eqn:Ha; [|done].
    apply lookup_insert_ne. apply H; [left|eauto].
  - intros ep' Hin. apply H. by right.
Qed.

(** The last accepted entry of a name decides its binding. *)
Lemma register_accepted_last (eps1 eps2 : list entry_point) (ep : entry_point)
    (cls : pyobj) (reg : gmap string pyobj) :
  accepted ep = Some cls →
  (∀ ep', ep' ∈ eps2 → is_Some (accepted ep') → ep_name ep' ≠ ep_name ep) →
  register_accepted (eps1 ++ ep :: eps2) reg !! ep_name ep = Some cls.
Proof.
  intros Ha H.
  rewrite register_accepted_app, register_accepted_cons, Ha.
  rewrite register_accepted_other by done.
  apply lookup_insert_eq.
Qed.

(** The whole loop, when no failure leaves [except Exception]. *)
Lemma load_external_runners_caught (self : AbstractFactory)
    (eps : list entry_point) (w : world) :
  forallb load_failure_caught eps = true →
  _load_external_runners self eps w
  = (Return tt,
     World (register_accepted eps (_runners w))
           (stdout w ++ omap diagnostic eps) (next_id w)).
Proof.
  revert w. induction eps as [|ep eps IH]; intros w H; simpl.
  - unfold ret. by rewrite app_nil_r, world_eta.
  - apply andb_prop in H as [Hep Heps].
    unfold bind. fold (register_accepted eps).
    destruct (accepted ep) as [cls|] eqn:Ha.
    + rewrite (load_entry_point_accepted self ep cls w Ha), (IH _ Heps). simpl.
      unfold diagnostic. apply accepted_checked in Ha as [-> Hs].
      apply issubclass_true_inv in Hs as (c & -> & _). done.
    + rewrite (load_entry_point_skipped self ep w Ha Hep), (IH _ Heps). simpl.
      destruct (diagnostic ep); simpl; by rewrite <- ?app_assoc, ?app_nil_r.
Qed.

(** ** The dictionary only ever holds checked classes *)

Lemma registry_checked_insert (reg : gmap string pyobj) (name : string)
    (v : pyobj) :
  registry_checked reg →
  issubclass_QueryRunner v = Return true →
  registry_checked (<[name := v]> reg).
Proof.
  intros Hreg Hv name' v'. rewrite lookup_insert.
  case_decide; [by intros [= <-]|]. apply Hreg.
Qed.

Lemma registry_checked_default : registry_checked default_runners.
Proof.
  unfold default_runners.
  repeat apply registry_checked_insert; done.
Qed.

Lemma load_external_runners_checked (self : AbstractFactory)
    (eps : list entry_point) (w : world) :
  registry_checked (_runners w) →
  registry_checked (_runners (_load_external_runners self eps w).2).
Proof.
  revert w. induction eps as [|ep eps IH]; intros w Hw; simpl; [done|].
  unfold bind.
  pose proof (load_entry_point_runners self ep w) as Hstep.
  destruct (load_entry_point self ep w) as [[[]|e] w1]; simpl in *.
  - apply IH. rewrite Hstep.
    destruct (accepted ep) as [cls|] eqn:Ha; [|done].
    apply registry_checked_insert; [done|]. by apply accepted_checked in Ha as [_ ?].
  - rewrite Hstep.
    destruct (accepted ep) as [cls|] eqn:Ha; [|done].
    apply registry_checked_insert; [done|]. by apply accepted_checked in Ha as [_ ?].
Qed.

Lemma run_op_checked (o : op) (w : world) :
  registry_checked (_runners w) → registry_checked (_runners (run_op o w)).
Proof.
  intros Hw. destruct o as [eps|name v|self name]; simpl.
  - unfold AbstractFactory_new, bind, alloc.
    pose proof (load_external_runners_checked (Factory (next_id w)) eps
                  (World (_runners w) (stdout w) (S (next_id w))) Hw) as H.
    destruct (_load_external_runners _ _ _) as [[[]|e] w1]; exact H.
  - destruct (issubclass_QueryRunner v) as [[|]|e] eqn:Hv.
    + rewrite (register_runner_accepts name v w Hv). simpl.
      by apply registry_checked_insert.
    + destruct (register_runner_rejects name v w) as [msg ->]; [congruence|done].
    + destruct (register_runner_rejects name v w) as [msg ->]; [congruence|done].
  - by rewrite get_dao_runners.
Qed.

Lemma run_ops_checked (ops : list op) (w : world) :
  registry_checked (_runners w) → registry_checked (_runners (run_ops ops w)).
Proof.
  revert w. induction ops as [|o ops IH]; intros w Hw; [done|].
  simpl. apply IH. by apply run_op_checked.
Qed.

Lemma load_external_runners_next_id (self : AbstractFactory)
    (eps : list entry_point) (w : world) :
  next_id (_load_external_runners self eps w).2 = next_id w.
Proof.
  revert w. induction eps as [|ep eps IH]; intros w; simpl; [done|].
  unfold bind.
  assert (next_id (load_entry_point self ep w).2 = next_id w) as Hstep.
  { unfold load_entry_point, try_except_Exception, bind, lift, print.
    destruct (ep_load ep) as [[d|c|i c]|e]; simpl; try done.
    - by destruct (inherits_QueryRunner c || registered_virtual c).
    - by destruct (is_Exception e). }
  destruct (load_entry_point self ep w) as [[[]|e] w1]; simpl in *; [|done].
  by rewrite IH.
Qed.

(** When the loop returns, it has registered the accepted entries. *)
Lemma load_external_runners_Return (self : AbstractFactory)
    (eps : list entry_point) (w w' : world) :
  _load_external_runners self eps w = (Return tt, w') →
  _runners w' = register_accepted eps (_runners w).
Proof.
  revert w. induction eps as [|ep eps IH]; intros w; simpl.
  - by intros [= <-].
  - unfold bind. fold (register_accepted eps).
    pose proof (load_entry_point_runners self ep w) as Hstep.
    destruct (load_entry_point self ep w) as [[[]|e] w1]; simpl in *; [|done].
    intros H. rewrite (IH _ H). by rewrite Hstep.
Qed.

Lemma AbstractFactory_new_Return (eps : list entry_point) (w w' : world)
    (f : AbstractFactory) :
  AbstractFactory_new eps w = (Return f, w') →
  f = Factory (next_id w)
  ∧ next_id w' = S (next_id w)
  ∧ _runners w' = register_accepted eps (_runners w).
Proof.
  unfold AbstractFactory_new, bind, alloc, ret.
  pose proof (load_external_runners_next_id (Factory (next_id w)) eps
                (World (_runners w) (stdout w) (S (next_id w)))) as Hid.
  pose proof (load_external_runners_Return (Factory (next_id w)) eps
                (World (_runners w) (stdout w) (S (next_id w)))) as Hreg.
  destruct (_load_external_runners _ _ _) as [[[]|e] w1]; [|done].
  intros [= <- <-]. simpl in *. split; [done|]. split; [done|]. by apply Hreg.
Qed.


(** ** The claims *)

(** C1. For every name that is not a key of the registry, the lookup fails
    with a [ValueError] whose message carries the name: [get_dao] raises
    "Unknown query runner: <name>" and leaves the state as it was; it does
    not return [None] or any runner and raises nothing else. The closed
    factory [get_query_runner] does the same for every name outside its
    three, with the message "Invalid query runner name: <name>.". *)
Theorem unknown_name_raises_ValueError (self : AbstractFactory) (name : string)
    (w : world) (next : nat) :
  (_runners w !! name = None →
   get_dao self name w
   = (Raise (Exn ValueError ("Unknown query runner: " +:+ name)), w))
  ∧ (name ∉ ["mongodb"; "mysql"; "bigquery"] →
     QueryRunnerFactoryPy.get_query_runner name next
     = (Raise (Exn ValueError ("Invalid query runner name: " +:+ name +:+ ".")), next)).
Proof.
  split.
  - apply get_dao_missing.
  - intros (H1 & (H2 & (H3 & _)%not_elem_of_cons)%not_elem_of_cons)%not_elem_of_cons.
    unfold QueryRunnerFactoryPy.get_query_runner.
    apply String.eqb_neq in H1, H2, H3. by rewrite H1, H2, H3.
Qed.

Lemma unknown_name_raises_ValueError_witness :
  _runners initial_world !! "nonexistent" = None
  ∧ get_dao (Factory 0) "nonexistent" initial_world
    = (Raise (Exn ValueError "Unknown query runner: nonexistent"), initial_world)
  ∧ QueryRunnerFactoryPy.get_query_runner "nonexistent" 0
    = (Raise (Exn ValueError "Invalid query runner name: nonexistent."), 0).
Proof.
  pose proof (unknown_name_raises_ValueError (Factory 0) "nonexistent"
                initial_world 0) as [H1 H2].
  split; [reflexivity|]. split.
  - apply H1. reflexivity.
  - apply H2. intros Hin. repeat (apply elem_of_cons in Hin as [Hin|Hin]; [discriminate|]).
    by apply elem_of_nil in Hin.
Defined.




(** C3, as stated, fails: [except Exception] does not catch [SystemExit].
    With a plugin whose import exits, followed by a valid plugin, the
    exception leaves the discovery call, the loop does not reach the valid
    plugin, and [AbstractFactory()] yields no factory. *)
Lemma discovery_aborted_by_SystemExit :
  accepted exiting_plugin = None
  ∧ accepted couchdb_plugin = Some (Class CouchDBRunner)
  ∧ _load_external_runners (Factory 0) [exiting_plugin; couchdb_plugin] initial_world
    = (Raise (Exn SystemExit "1"), initial_world)
  ∧ _runners (_load_external_runners (Factory 0) [exiting_plugin; couchdb_plugin]
                initial_world).2 !! "couchdb" = None
  ∧ (AbstractFactory_new [exiting_plugin; couchdb_plugin] initial_world).1
    = Raise (Exn SystemExit "1")
  ∧ ¬ (∃ w', _load_external_runners (Factory 0) [exiting_plugin; couchdb_plugin]
               initial_world = (Return tt, w')).
Proof.
  split; [reflexivity|]. split; [reflexivity|].
  assert (_load_external_runners (Factory 0) [exiting_plugin; couchdb_plugin]
            initial_world = (Raise (Exn SystemExit "1"), initial_world)) as H
    by reflexivity.
  split; [exact H|]. split; [reflexivity|]. split; [reflexivity|].
  intros [w' Hret]. congruence.
Qed.

(** C3, amended. For every sequence of entry points whose [load()] failures
    derive from [Exception], discovery returns normally and the factory is
    constructed. The registry afterwards is the earlier one with exactly
    the entries that load to a subclass of [QueryRunner] registered, in
    order: such an entry is bound to its class unless a later such entry
    has the same name, and a name that no such entry carries is bound (or
    absent) as before, so an entry that fails adds nothing. One diagnostic
    line is printed for each entry that raised. *)
Theorem discovery_isolates_caught_failures (self : AbstractFactory)
    (eps : list entry_point) (w : world) :
  forallb load_failure_caught eps = true →
  ∃ w', _load_external_runners self eps w = (Return tt, w')
    ∧ (AbstractFactory_new eps w).1 = Return (Factory (next_id w))
    ∧ _runners w' = register_accepted eps (_runners w)
    ∧ stdout w' = stdout w ++ omap diagnostic eps
    ∧ (∀ eps1 ep eps2 cls,
         eps = eps1 ++ ep :: eps2 →
         accepted ep = Some cls →
         (∀ ep', ep' ∈ eps2 → is_Some (accepted ep') → ep_name ep' ≠ ep_name ep) →
         _runners w' !! ep_name ep = Some cls)
    ∧ (∀ name,
         (∀ ep, ep ∈ eps → is_Some (accepted ep) → ep_name ep ≠ name) →
         _runners w' !! name = _runners w !! name).
Proof.
  intros H. eexists. split; [by apply load_external_runners_caught|].
  split; [|split; [done|split; [done|split]]]; simpl.
  - unfold AbstractFactory_new, bind, alloc.
    by rewrite load_external_runners_caught.
  - intros eps1 ep eps2 cls -> Ha Hlast. by apply register_accepted_last.
  - intros name Hname. by apply register_accepted_other.
Qed.

Lemma discovery_isolates_caught_failures_witness :
  let eps := [failing_plugin; unrelated_plugin; couchdb_plugin; number_plugin] in
  forallb load_failure_caught eps = true
  ∧ ∃ w', _load_external_runners (Factory 0) eps initial_world = (Return tt, w')
      ∧ (AbstractFactory_new eps initial_world).1 = Return (Factory 0)
      ∧ _runners w' = register_accepted eps default_runners
      ∧ stdout w' = omap diagnostic eps
      ∧ (∀ eps1 ep eps2 cls,
           eps = eps1 ++ ep :: eps2 →
           accepted ep = Some cls →
           (∀ ep', ep' ∈ eps2 → is_Some (accepted ep') → ep_name ep' ≠ ep_name ep) →
           _runners w' !! ep_name ep = Some cls)
      ∧ (∀ name,
           (∀ ep, ep ∈ eps → is_Some (accepted ep) → ep_name ep ≠ name) →
           _runners w' !! name = default_runners !! name).
Proof.
  cbv zeta. split; [reflexivity|].
  apply (discovery_isolates_caught_failures (Factory 0)
           [failing_plugin; unrelated_plugin; couchdb_plugin; number_plugin]
           initial_world).
  reflexivity.
Defined.

(** C4. Registration is last-write-wins: for classes [c1] and [c2] that
    satisfy the Runner contract, registering [c1] and then [c2] under the
    same name succeeds both times, leaves the name bound to [c2], and a
    following [get_dao] returns a new instance of [c2]. *)
Theorem register_runner_last_write_wins (self : AbstractFactory) (name : string)
    (c1 c2 : pyclass) (w : world) :
  satisfies_runner_contract c1 = true →
  satisfies_runner_contract c2 = true →
  ∃ w1 w2 w3,
    register_runner name (Class c1) w = (Return tt, w1)
    ∧ register_runner name (Class c2) w1 = (Return tt, w2)
    ∧ _runners w1 !! name = Some (Class c1)
    ∧ _runners w2 !! name = Some (Class c2)
    ∧ _runners w2 = <[name := Class c2]> (_runners w)
    ∧ get_dao self name w2 = (Return (Instance (next_id w) c2), w3).
Proof.
  intros H1 H2.
  pose proof (contract_inherits c1 H1) as Hi1.
  pose proof (contract_inherits c2 H2) as Hi2.
  do 3 eexists.
  split; [by apply register_runner_accepts, inherits_issubclass|].
  split; [by apply register_runner_accepts, inherits_issubclass|].
  simpl. split; [apply lookup_insert_eq|]. split; [apply lookup_insert_eq|].
  split; [apply insert_insert_eq|].
  rewrite (get_dao_registered _ _ c2) by apply lookup_insert_eq.
  by rewrite instantiate_contract.
Qed.

Lemma register_runner_last_write_wins_witness :
  satisfies_runner_contract MongoDBRunner = true
  ∧ satisfies_runner_contract CouchDBRunner = true
  ∧ ∃ w1 w2 w3,
      register_runner "x" (Class MongoDBRunner) initial_world = (Return tt, w1)
      ∧ register_runner "x" (Class CouchDBRunner) w1 = (Return tt, w2)
      ∧ _runners w1 !! "x" = Some (Class MongoDBRunner)
      ∧ _runners w2 !! "x" = Some (Class CouchDBRunner)
      ∧ _runners w2 = <["x" := Class CouchDBRunner]> (_runners initial_world)
      ∧ get_dao (Factory 0) "x" w2
        = (Return (Instance (next_id initial_world) CouchDBRunner), w3).
Proof.
  split; [reflexivity|]. split; [reflexivity|].
  apply (register_runner_last_write_wins (Factory 0) "x" MongoDBRunner
           CouchDBRunner initial_world); reflexivity.
Defined.




(** C6. On the default registry, for every configuration dictionary,
    [get_dao("bigquery")] returns a runner whose [get_number] returns 3,
    whatever the configuration holds; so does the closed factory's
    [get_query_runner("bigquery")]. *)
Theorem bigquery_get_number_is_3 (self : AbstractFactory) (w : world)
    (next : nat) (configuration : gmap string pydata) :
  _runners w = default_runners →
  (∃ inst w',
     get_dao self "bigquery" w = (Return inst, w')
     ∧ (call_get_number inst configuration).1 = Return (PyInt 3))
  ∧ (∃ runner next',
       QueryRunnerFactoryPy.get_query_runner "bigquery" next = (Return runner, next')
       ∧ (QueryRunnerFactoryPy.get_number runner configuration).1 = Return (PyInt 3)).
Proof.
  intros Hw. split.
  - do 2 eexists. split.
    + rewrite (get_dao_registered _ _ BigQueryRunner) by (by rewrite Hw).
      by apply instantiate_contract.
    + done.
  - do 2 eexists. split; [reflexivity|done].
Qed.

Lemma bigquery_get_number_is_3_witness :
  _runners (AbstractFactory_new [] initial_world).2 = default_runners
  ∧ (∃ inst w',
       get_dao (Factory 0) "bigquery" (AbstractFactory_new [] initial_world).2
       = (Return inst, w')
       ∧ (call_get_number inst example_configuration).1 = Return (PyInt 3))
  ∧ (∃ runner next',
       QueryRunnerFactoryPy.get_query_runner "bigquery" 0 = (Return runner, next')
       ∧ (QueryRunnerFactoryPy.get_number runner example_configuration).1
         = Return (PyInt 3)).
Proof.
  split; [reflexivity|].
  apply (bigquery_get_number_is_3 (Factory 0)
           (AbstractFactory_new [] initial_world).2 0 example_configuration).
  reflexivity.
Defined.






(** C9. The registry belongs to the class, not to the factory object. An
    object that [AbstractFactory()] creates has no [_runners] of its own,
    so [self._runners] is the class dictionary: with [f1] constructed
    beforehand, a [register_runner] call makes the name resolve to the
    registered class through [f1] and through every other factory, and
    [get_dao] returns a runner of that class when it satisfies the Runner
    contract; when constructing a further factory [f2] loads a plugin
    entry for the name (not overridden by a later entry), the name
    resolves to the plugin's class through both [f2] and the older,
    distinct [f1]. A receiver carrying a [_runners] dictionary of its own
    would not see the registration. *)
Theorem runners_shared_by_all_factories (eps1 eps2a eps2b : list entry_point)
    (w0 w1 w2 : world) (f1 f2 : AbstractFactory) (name : string) (c : pyclass) :
  AbstractFactory_new eps1 w0 = (Return f1, w1) →
  inherits_QueryRunner c || registered_virtual c = true →
  (∃ w', register_runner name (Class c) w1 = (Return tt, w')
      ∧ get_dao f1 name w' = call (Class c) w'
      ∧ (∀ self, get_dao self name w' = call (Class c) w')
      ∧ (satisfies_runner_contract c = true →
         ∃ w'', get_dao f1 name w' = (Return (Instance (next_id w') c), w'')
              ∧ has_get_number (Instance (next_id w') c) = true)
      ∧ (∀ own : gmap string pyobj,
           own !! name = None →
           get_dao_of (Self (factory_id f1) (Some own)) name w'
           = (Raise (Exn ValueError ("Unknown query runner: " +:+ name)), w')))
  ∧ (AbstractFactory_new (eps2a ++ EntryPoint name (Return (Class c)) :: eps2b) w1
     = (Return f2, w2) →
     (∀ ep, ep ∈ eps2b → is_Some (accepted ep) → ep_name ep ≠ name) →
     f1 ≠ f2
     ∧ get_dao f1 name w2 = call (Class c) w2
     ∧ get_dao f2 name w2 = call (Class c) w2
     ∧ (satisfies_runner_contract c = true →
        ∃ w'', get_dao f1 name w2 = (Return (Instance (next_id w2) c), w'')
             ∧ has_get_number (Instance (next_id w2) c) = true)).
Proof.
  intros Hf1 Hc.
  assert (∀ self w,
            _runners w !! name = Some (Class c) →
            satisfies_runner_contract c = true →
            ∃ w'', get_dao self name w = (Return (Instance (next_id w) c), w'')
                 ∧ has_get_number (Instance (next_id w) c) = true) as Hrunner.
  { intros self w Hl Hok. eexists. split.
    - rewrite (get_dao_registered _ _ c) by done. by apply instantiate_contract.
    - simpl. by destruct (contract_has_method c Hok) as [f ->]. }
  split.
  - eexists. split; [apply register_runner_accepts; simpl; by rewrite Hc|].
    split; [apply get_dao_registered, lookup_insert_eq|].
    split; [intros self; apply get_dao_registered, lookup_insert_eq|].
    split; [intros Hok; apply Hrunner; [apply lookup_insert_eq|done]|].
    intros own Hown.
    unfold get_dao_of, getattr_runners, dict_get, bind. simpl. by rewrite Hown.
  - intros Hf2 Hlast.
    apply AbstractFactory_new_Return in Hf1 as (-> & Hn1 & _).
    apply AbstractFactory_new_Return in Hf2 as (-> & _ & Hreg).
    assert (_runners w2 !! name = Some (Class c)) as Hlook.
    { rewrite Hreg.
      apply (register_accepted_last eps2a eps2b (EntryPoint name (Return (Class c)))).
      - unfold accepted. simpl. by rewrite Hc.
      - exact Hlast. }
    split; [intros [= Hid]; lia|].
    split; [by apply get_dao_registered|].
    split; [by apply get_dao_registered|].
    intros Hok. by apply Hrunner.
Qed.

Lemma runners_shared_by_all_factories_witness :
  AbstractFactory_new [] initial_world
  = (Return (Factory 0), World default_runners [] 1)
  ∧ inherits_QueryRunner CouchDBRunner || registered_virtual CouchDBRunner = true
  ∧ AbstractFactory_new ([failing_plugin] ++ couchdb_plugin :: [number_plugin])
      (World default_runners [] 1)
    = (Return (Factory 1),
       World (<["couchdb" := Class CouchDBRunner]> default_runners)
         ["Error loading runner failing: No module named 'missing'";
          "Error loading runner number: issubclass() arg 1 must be a class"] 2)
  ∧ Factory 0 ≠ Factory 1
  ∧ (∃ w'', get_dao (Factory 0) "couchdb"
              (World (<["couchdb" := Class CouchDBRunner]> default_runners)
                 ["Error loading runner failing: No module named 'missing'";
                  "Error loading runner number: issubclass() arg 1 must be a class"] 2)
            = (Return (Instance 2 CouchDBRunner), w'')
          ∧ has_get_number (Instance 2 CouchDBRunner) = true).
Proof.
  split; [reflexivity|]. split; [reflexivity|]. split; [reflexivity|].
  destruct (runners_shared_by_all_factories [] [failing_plugin] [number_plugin]
              initial_world (World default_runners [] 1)
              (World (<["couchdb" := Class CouchDBRunner]> default_runners)
                 ["Error loading runner failing: No module named 'missing'";
                  "Error loading runner number: issubclass() arg 1 must be a class"] 2)
              (Factory 0) (Factory 1) "couchdb" CouchDBRunner
              eq_refl eq_refl) as [_ H].
  destruct H as (Hne & _ & _ & H3).
  - reflexivity.
  - intros ep Hin. apply list_elem_of_singleton in Hin as ->.
    intros [x Hx]. discriminate.
  - split; [exact Hne|]. apply H3. reflexivity.
Defined.

(** C10. On the default registry, for every configuration dictionary [c],
    the runner of "mongodb" answers 1 and the runner of "mysql" answers 2,
    and the dictionary after either call is [c]; the closed factory's
    runners answer the same. *)
Theorem mongodb_is_1_mysql_is_2 (self : AbstractFactory) (w : world) (next : nat)
    (c : gmap string pydata) :
  _runners w = default_runners →
  (∃ inst w', get_dao self "mongodb" w = (Return inst, w')
      ∧ call_get_number inst c = (Return (PyInt 1), c))
  ∧ (∃ inst w', get_dao self "mysql" w = (Return inst, w')
        ∧ call_get_number inst c = (Return (PyInt 2), c))
  ∧ (∃ runner next',
       QueryRunnerFactoryPy.get_query_runner "mongodb" next = (Return runner, next')
       ∧ QueryRunnerFactoryPy.get_number runner c = (Return (PyInt 1), c))
  ∧ (∃ runner next',
       QueryRunnerFactoryPy.get_query_runner "mysql" next = (Return runner, next')
       ∧ QueryRunnerFactoryPy.get_number runner c = (Return (PyInt 2), c)).
Proof.
  intros Hw. split; [|split; [|split]].
  - do 2 eexists. split.
    + rewrite (get_dao_registered _ _ MongoDBRunner) by (by rewrite Hw).
      by apply instantiate_contract.
    + done.
  - do 2 eexists. split.
    + rewrite (get_dao_registered _ _ MySQLRunner) by (by rewrite Hw).
      by apply instantiate_contract.
    + done.
  - do 2 eexists. split; [reflexivity|done].
  - do 2 eexists. split; [reflexivity|done].
Qed.

Lemma mongodb_is_1_mysql_is_2_witness :
  _runners initial_world = default_runners
  ∧ (∃ inst w', get_dao (Factory 0) "mongodb" initial_world = (Return inst, w')
        ∧ call_get_number inst example_configuration
          = (Return (PyInt 1), example_configuration))
  ∧ (∃ inst w', get_dao (Factory 0) "mysql" initial_world = (Return inst, w')
        ∧ call_get_number inst example_configuration
          = (Return (PyInt 2), example_configuration)).
Proof.
  split; [reflexivity|].
  destruct (mongodb_is_1_mysql_is_2 (Factory 0) initial_world 0
              example_configuration eq_refl) as (H1 & H2 & _).
  split; [exact H1|exact H2].
Defined.

(** * Further properties of the two modules *)

(** ** What [get_dao] returns *)




(** ** Names are never unregistered *)

Lemma load_external_runners_keeps (self : AbstractFactory)
    (eps : list entry_point) (w : world) (name : string) :
  is_Some (_runners w !! name) →
  is_Some (_runners (_load_external_runners self eps w).2 !! name).
Proof.
  revert w. induction eps as [|ep eps IH]; intros w Hw; simpl; [done|].
  unfold bind.
  pose proof (load_entry_point_runners self ep w) as Hstep.
  assert (is_Some (_runners (load_entry_point self ep w).2 !! name)) as Hw1.
  { rewrite Hstep. destruct (accepted ep) as [cls|]; [|done].
    rewrite lookup_insert. by case_decide. }
  destruct (load_entry_point self ep w) as [[[]|e] w1]; simpl in *; [|done].
  by apply IH.
Qed.

Lemma run_op_keeps (o : op) (w : world) (name : string) :
  is_Some (_runners w !! name) → is_Some (_runners (run_op o w) !! name).
Proof.
  intros Hw. destruct o as [eps|name' v|self name']; simpl.
  - unfold AbstractFactory_new, bind, alloc.
    pose proof (load_external_runners_keeps (Factory (next_id w)) eps
                  (World (_runners w) (stdout w) (S (next_id w))) name Hw) as H.
    destruct (_load_external_runners _ _ _) as [[[]|e] w1]; exact H.
  - destruct (issubclass_QueryRunner v) as [[|]|e] eqn:Hv.
    + rewrite (register_runner_accepts name' v w Hv). simpl.
      rewrite lookup_insert. by case_decide.
    + destruct (register_runner_rejects name' v w) as [msg ->]; [congruence|done].
    + destruct (register_runner_rejects name' v w) as [msg ->]; [congruence|done].
  - by rewrite get_dao_runners.
Qed.

(** X2. No call removes a name: a name bound in [_runners] is still bound
    after any sequence of factory constructions (even ones that discovery
    aborts), registrations (accepted or refused) and lookups; it may have
    been rebound to another class. When the registry holds only checked
    classes to begin with, as the one of the imported module does, the
    name is bound to a class afterwards, so [get_dao] on it is the call of
    that class and never the "Unknown query runner" error. *)
Theorem registered_names_stay_registered (ops : list op) (self : AbstractFactory)
    (w : world) (name : string) :
  is_Some (_runners w !! name) →
  is_Some (_runners (run_ops ops w) !! name)
  ∧ (registry_checked (_runners w) →
     ∃ c, _runners (run_ops ops w) !! name = Some (Class c)
       ∧ get_dao self name (run_ops ops w) = instantiate c (run_ops ops w)).
Proof.
  intros Hw.
  assert (is_Some (_runners (run_ops ops w) !! name)) as Hkept.
  { revert w Hw. induction ops as [|o ops IH]; intros w Hw; [done|].
    simpl. apply IH. by apply run_op_keeps. }
  split; [done|]. intros Hchecked.
  destruct Hkept as [v Hv].
  pose proof (run_ops_checked ops w Hchecked _ _ Hv)
    as (c & -> & _)%issubclass_true_inv.
  exists c. split; [done|]. by apply get_dao_registered.
Qed.

Lemma registered_names_stay_registered_witness :
  let ops := [OpConstruct [exiting_plugin; couchdb_plugin];
              OpRegister "mysql" (Class CouchDBRunner);
              OpRegister "mysql" (Class Unrelated);
              OpGetDao (Factory 0) "nonexistent"] in
  is_Some (_runners initial_world !! "mysql")
  ∧ is_Some (_runners (run_ops ops initial_world) !! "mysql")
  ∧ ∃ c, _runners (run_ops ops initial_world) !! "mysql" = Some (Class c)
      ∧ get_dao (Factory 0) "mysql" (run_ops ops initial_world)
        = instantiate c (run_ops ops initial_world).
Proof.
  cbv zeta. split; [by eexists|].
  destruct (registered_names_stay_registered
              [OpConstruct [exiting_plugin; couchdb_plugin];
               OpRegister "mysql" (Class CouchDBRunner);
               OpRegister "mysql" (Class Unrelated);
               OpGetDao (Factory 0) "nonexistent"]
              (Factory 0) initial_world "mysql") as [H1 H2].
  - by eexists.
  - split; [exact H1|]. apply H2. exact registry_checked_default.
Defined.

(** ** Discovery that is cut short *)

Lemma load_external_runners_app (self : AbstractFactory)
    (eps1 eps2 : list entry_point) (w : world) :
  _load_external_runners self (eps1 ++ eps2) w
  = (do _ <- _load_external_runners self eps1; _load_external_runners self eps2) w.
Proof.
  revert w. induction eps1 as [|ep eps1 IH]; intros w; simpl; [done|].
  unfold bind in *.
  destruct (load_entry_point self ep w) as [[[]|e] w1]; [|done].
  apply IH.
Qed.

Lemma load_external_runners_escapes (self : AbstractFactory)
    (before after : list entry_point) (ep : entry_point) (e : exn) (w : world) :
  forallb load_failure_caught before = true →
  ep_load ep = Raise e →
  is_Exception e = false →
  _load_external_runners self (before ++ ep :: after) w
  = (Raise e,
     World (register_accepted before (_runners w))
           (stdout w ++ omap diagnostic before) (next_id w)).
Proof.
  intros Hbefore Hload He.
  rewrite load_external_runners_app. unfold bind at 1.
  rewrite (load_external_runners_caught self before w Hbefore).
  simpl. unfold bind.
  destruct (load_entry_point_escapes self ep
              (World (register_accepted before (_runners w))
                 (stdout w ++ omap diagnostic before) (next_id w)))
    as (e' & He' & ->).
  - unfold load_failure_caught. by rewrite Hload.
  - congruence.
Qed.

(** X4. Discovery stops at the first entry whose [load()] raises outside
    [Exception]: the entries before it are handled as usual (accepted ones
    registered, diagnostics printed) and stay so, the exception is raised
    to the caller without a diagnostic, the entries after it are not
    looked at, and [AbstractFactory()] raises the same exception. *)
Theorem discovery_stops_at_first_uncaught (self : AbstractFactory)
    (before after : list entry_point) (ep : entry_point) (e : exn) (w : world) :
  forallb load_failure_caught before = true →
  ep_load ep = Raise e →
  is_Exception e = false →
  _load_external_runners self (before ++ ep :: after) w
  = (Raise e,
     World (register_accepted before (_runners w))
           (stdout w ++ omap diagnostic before) (next_id w))
  ∧ (AbstractFactory_new (before ++ ep :: after) w).1 = Raise e
  ∧ _runners (AbstractFactory_new (before ++ ep :: after) w).2
    = register_accepted before (_runners w).
Proof.
  intros Hbefore Hload He.
  split; [by apply load_external_runners_escapes|].
  unfold AbstractFactory_new, bind, alloc.
  by rewrite (load_external_runners_escapes _ before after ep e _ Hbefore Hload He).
Qed.

Lemma discovery_stops_at_first_uncaught_witness :
  forallb load_failure_caught [failing_plugin; couchdb_plugin] = true
  ∧ ep_load exiting_plugin = Raise (Exn SystemExit "1")
  ∧ is_Exception (Exn SystemExit "1") = false
  ∧ _load_external_runners (Factory 0)
      ([failing_plugin; couchdb_plugin] ++ exiting_plugin :: [number_plugin])
      initial_world
    = (Raise (Exn SystemExit "1"),
       World (register_accepted [failing_plugin; couchdb_plugin] default_runners)
         ([] ++ omap diagnostic [failing_plugin; couchdb_plugin]) 0).
Proof.
  split; [reflexivity|]. split; [reflexivity|]. split; [reflexivity|].
  apply (discovery_stops_at_first_uncaught (Factory 0)
           [failing_plugin; couchdb_plugin] [number_plugin] exiting_plugin
           (Exn SystemExit "1") initial_world); reflexivity.
Defined.

(** ** Running discovery again, and in another order *)

Lemma not_accepted_name (eps : list entry_point) (name : string) :
  name ∉ accepted_names eps →
  ∀ ep, ep ∈ eps → is_Some (accepted ep) → ep_name ep ≠ name.
Proof.
  intros Hnot ep Hin [cls Hcls] Heq. apply Hnot.
  apply list_elem_of_omap. exists ep. split; [done|].
  unfold accepted_name. by rewrite Hcls, Heq.
Qed.

(** Among the accepted entries of a name there is a last one. *)
Lemma accepted_names_last (eps : list entry_point) (name : string) :
  name ∈ accepted_names eps →
  ∃ eps1 ep eps2 cls,
    eps = eps1 ++ ep :: eps2
    ∧ ep_name ep = name
    ∧ accepted ep = Some cls
    ∧ ∀ ep', ep' ∈ eps2 → is_Some (accepted ep') → ep_name ep' ≠ name.
Proof.
  induction eps as [|ep eps IH]; intros Hin.
  - by apply elem_of_nil in Hin.
  - destruct (decide (name ∈ accepted_names eps)) as [Hlater|Hnone].
    + destruct (IH Hlater) as (eps1 & ep0 & eps2 & cls & -> & Hn & Ha & Hlast).
      by exists (ep :: eps1), ep0, eps2, cls.
    + unfold accepted_names in Hin. simpl in Hin.
      unfold accepted_name at 1 in Hin.
      destruct (accepted ep) as [cls|] eqn:Ha; [|done].
      apply elem_of_cons in Hin as [->|Hin]; [|done].
      exists [], ep, eps, cls. repeat split; try done.
      by apply not_accepted_name.
Qed.

(** Registering the accepted entries a second time changes nothing. *)
Lemma register_accepted_twice (eps : list entry_point) (reg : gmap string pyobj) :
  register_accepted eps (register_accepted eps reg) = register_accepted eps reg.
Proof.
  apply map_eq. intros name.
  destruct (decide (name ∈ accepted_names eps)) as [Hin|Hnot].
  - destruct (accepted_names_last eps name Hin)
      as (eps1 & ep & eps2 & cls & -> & <- & Ha & Hlast).
    by rewrite !(register_accepted_last eps1 eps2 ep cls).
  - by rewrite (register_accepted_other eps (register_accepted eps reg) name)
      by (by apply not_accepted_name).
Qed.

Lemma AbstractFactory_new_caught (eps : list entry_point) (w : world) :
  forallb load_failure_caught eps = true →
  AbstractFactory_new eps w
  = (Return (Factory (next_id w)),
     World (register_accepted eps (_runners w))
           (stdout w ++ omap diagnostic eps) (S (next_id w))).
Proof.
  intros H. unfold AbstractFactory_new, bind, alloc.
  by rewrite load_external_runners_caught.
Qed.

(** X5. Constructing a second factory with the same installed entry points
    (none of which raises outside [Exception]) leaves the registry exactly
    as the first construction left it, gives a distinct factory object,
    and prints the same diagnostics once more. *)
Theorem second_construction_keeps_registry (eps : list entry_point) (w : world) :
  forallb load_failure_caught eps = true →
  ∃ f1 w1 f2 w2,
    AbstractFactory_new eps w = (Return f1, w1)
    ∧ AbstractFactory_new eps w1 = (Return f2, w2)
    ∧ f1 ≠ f2
    ∧ _runners w2 = _runners w1
    ∧ stdout w2 = stdout w1 ++ omap diagnostic eps.
Proof.
  intros H. do 4 eexists.
  split; [by apply AbstractFactory_new_caught|].
  split; [by apply AbstractFactory_new_caught|].
  simpl. split; [intros [= Hid]; lia|].
  split; [apply register_accepted_twice|done].
Qed.

Lemma second_construction_keeps_registry_witness :
  let eps := [failing_plugin; couchdb_plugin; unrelated_plugin;
              EntryPoint "couchdb" (Return (Class MongoDBRunner))] in
  forallb load_failure_caught eps = true
  ∧ ∃ f1 w1 f2 w2,
      AbstractFactory_new eps initial_world = (Return f1, w1)
      ∧ AbstractFactory_new eps w1 = (Return f2, w2)
      ∧ f1 ≠ f2
      ∧ _runners w2 = _runners w1
      ∧ stdout w2 = stdout w1 ++ omap diagnostic eps.
Proof.
  cbv zeta. split; [reflexivity|].
  apply (second_construction_keeps_registry
           [failing_plugin; couchdb_plugin; unrelated_plugin;
            EntryPoint "couchdb" (Return (Class MongoDBRunner))] initial_world).
  reflexivity.
Defined.

Lemma forallb_Permutation {A} (f : A → bool) (l l' : list A) :
  l ≡ₚ l' → forallb f l = true → forallb f l' = true.
Proof.
  induction 1 as [|x l l' _ IH|x y l|l l' l'' _ IH1 _ IH2]; simpl.
  - done.
  - intros [Hx Hl]%andb_prop. by rewrite Hx, IH.
  - intros [Hy [Hx Hl]%andb_prop]%andb_prop. by rewrite Hx, Hy, Hl.
  - auto.
Qed.

(** With one accepted entry per name, the order of the entries does not
    matter for the registry. *)
Lemma register_accepted_Permutation (eps eps' : list entry_point) :
  eps ≡ₚ eps' →
  NoDup (accepted_names eps) →
  ∀ reg, register_accepted eps reg = register_accepted eps' reg.
Proof.
  induction 1 as [|x l l' Hperm IH|x y l|l l' l'' Hperm1 IH1 Hperm2 IH2];
    intros Hnd reg.
  - done.
  - rewrite !register_accepted_cons. apply IH.
    unfold accepted_names in *. simpl in Hnd.
    destruct (accepted_name x); [by apply NoDup_cons in Hnd as [_ ?]|done].
  - rewrite !register_accepted_cons.
    unfold accepted_names in Hnd. simpl in Hnd. unfold accepted_name at 1 2 in Hnd.
    destruct (accepted x) as [cx|], (accepted y) as [cy|]; try done.
    apply NoDup_cons in Hnd as [Hne _].
    rewrite insert_insert_ne; [done|].
    intros Heq. apply Hne. rewrite Heq. by left.
  - rewrite IH1 by done. apply IH2.
    unfold accepted_names in *. by rewrite <- Hperm1.
Qed.

(** X6. When no two accepted entries carry the same name and no entry
    raises outside [Exception], discovery yields the same registry in
    whatever order [iter_entry_points] enumerates the entries, so every
    [get_dao] behaves the same afterwards. *)
Theorem discovery_order_is_irrelevant (self : AbstractFactory)
    (eps eps' : list entry_point) (w : world) (name : string) :
  eps ≡ₚ eps' →
  NoDup (accepted_names eps) →
  forallb load_failure_caught eps = true →
  ∃ w1 w2,
    _load_external_runners self eps w = (Return tt, w1)
    ∧ _load_external_runners self eps' w = (Return tt, w2)
    ∧ _runners w1 = _runners w2
    ∧ same_behaviour (get_dao self name w1).1 (get_dao self name w2).1.
Proof.
  intros Hperm Hnd Hcaught.
  pose proof (forallb_Permutation _ _ _ Hperm Hcaught) as Hcaught'.
  do 2 eexists.
  split; [by apply load_external_runners_caught|].
  split; [by apply load_external_runners_caught|].
  assert (register_accepted eps (_runners w) = register_accepted eps' (_runners w))
    as Heq by by apply register_accepted_Permutation.
  split; [done|]. by apply get_dao_same_behaviour.
Qed.

Lemma discovery_order_is_irrelevant_witness :
  [failing_plugin; couchdb_plugin; EntryPoint "mysql" (Return (Class MongoDBRunner))]
    ≡ₚ [EntryPoint "mysql" (Return (Class MongoDBRunner)); couchdb_plugin; failing_plugin]
  ∧ NoDup (accepted_names
             [failing_plugin; couchdb_plugin;
              EntryPoint "mysql" (Return (Class MongoDBRunner))])
  ∧ ∃ w1 w2,
      _load_external_runners (Factory 0)
        [failing_plugin; couchdb_plugin;
         EntryPoint "mysql" (Return (Class MongoDBRunner))] initial_world
      = (Return tt, w1)
      ∧ _load_external_runners (Factory 0)
          [EntryPoint "mysql" (Return (Class MongoDBRunner)); couchdb_plugin;
           failing_plugin] initial_world
        = (Return tt, w2)
      ∧ _runners w1 = _runners w2
      ∧ same_behaviour (get_dao (Factory 0) "mysql" w1).1
          (get_dao (Factory 0) "mysql" w2).1.
Proof.
  assert ([failing_plugin; couchdb_plugin;
           EntryPoint "mysql" (Return (Class MongoDBRunner))]
            ≡ₚ [EntryPoint "mysql" (Return (Class MongoDBRunner)); couchdb_plugin;
                failing_plugin]) as Hperm.
  { etrans; [apply perm_skip, perm_swap|].
    etrans; [apply perm_swap|]. apply perm_skip, perm_swap. }
  assert (NoDup (accepted_names
                   [failing_plugin; couchdb_plugin;
                    EntryPoint "mysql" (Return (Class MongoDBRunner))])) as Hnd.
  { apply (bool_decide_unpack _). vm_compute. exact I. }
  split; [exact Hperm|]. split; [exact Hnd|].
  apply (discovery_order_is_irrelevant (Factory 0) _ _ initial_world "mysql"
           Hperm Hnd).
  reflexivity.
Defined.

(** ** Other names are left alone *)

(** Discovery, complete or cut short, writes only under the names of
    accepted entries. *)
Lemma load_external_runners_other (self : AbstractFactory)
    (eps : list entry_point) (w : world) (name : string) :
  name ∉ accepted_names eps →
  _runners (_load_external_runners self eps w).2 !! name = _runners w !! name.
Proof.
  revert w. induction eps as [|ep eps IH]; intros w Hnot; simpl; [done|].
  assert ((name ∉ accepted_names eps) ∧ accepted_name ep ≠ Some name)
    as [Hrest Hep].
  { unfold accepted_names in *. simpl in Hnot.
    destruct (accepted_name ep) as [n|].
    - apply not_elem_of_cons in Hnot as [Hne Hrest]. split; [done|congruence].
    - done. }
  unfold bind.
  pose proof (load_entry_point_runners self ep w) as Hstep.
  assert (_runners (load_entry_point self ep w).2 !! name = _runners w !! name)
    as Hw1.
  { rewrite Hstep. unfold accepted_name in Hep.
    destruct (accepted ep) as [cls|]; [|done].
    apply lookup_insert_ne. congruence. }
  destruct (load_entry_point self ep w) as [[[]|e] w1]; simpl in *; [|done].
  by rewrite IH.
Qed.

(** X8. Registration and discovery touch only the names they write: after
    [register_runner(name, v)], accepted or refused, and after a factory
    construction whose accepted entries do not carry [other], the name
    [other] is bound (or missing) as before and [get_dao(other)] behaves
    as before, even when discovery was cut short by an exception. *)
Theorem other_names_are_untouched (self : AbstractFactory) (name other : string)
    (v : pyobj) (eps : list entry_point) (w : world) :
  other ≠ name →
  other ∉ accepted_names eps →
  _runners (register_runner name v w).2 !! other = _runners w !! other
  ∧ same_behaviour (get_dao self other (register_runner name v w).2).1
      (get_dao self other w).1
  ∧ _runners (AbstractFactory_new eps w).2 !! other = _runners w !! other
  ∧ same_behaviour (get_dao self other (AbstractFactory_new eps w).2).1
      (get_dao self other w).1.
Proof.
  intros Hne Hnot.
  assert (_runners (register_runner name v w).2 !! other = _runners w !! other)
    as Hreg.
  { unfold register_runner, bind, lift.
    destruct (issubclass_QueryRunner v) as [[|]|e]; simpl; try done.
    by apply lookup_insert_ne. }
  assert (_runners (AbstractFactory_new eps w).2 !! other = _runners w !! other)
    as Hnew.
  { unfold AbstractFactory_new, bind, alloc.
    pose proof (load_external_runners_other (Factory (next_id w)) eps
                  (World (_runners w) (stdout w) (S (next_id w))) other Hnot) as H.
    by destruct (_load_external_runners _ _ _) as [[[]|e] w1]. }
  split; [done|]. split; [by apply get_dao_depends_on_binding|].
  split; [done|]. by apply get_dao_depends_on_binding.
Qed.

Lemma other_names_are_untouched_witness :
  "mysql" ≠ "mongodb"
  ∧ ("mysql" ∉ accepted_names [couchdb_plugin; exiting_plugin])
  ∧ _runners (register_runner "mongodb" (Class CouchDBRunner) initial_world).2
      !! "mysql" = _runners initial_world !! "mysql"
  ∧ _runners (AbstractFactory_new [couchdb_plugin; exiting_plugin] initial_world).2
      !! "mysql" = _runners initial_world !! "mysql".
Proof.
  assert ("mysql" ≠ "mongodb") as Hne by discriminate.
  assert ("mysql" ∉ accepted_names [couchdb_plugin; exiting_plugin]) as Hnot.
  { intros Hin. apply list_elem_of_singleton in Hin. discriminate. }
  destruct (other_names_are_untouched (Factory 0) "mongodb" "mysql"
              (Class CouchDBRunner) [couchdb_plugin; exiting_plugin]
              initial_world Hne Hnot) as (H1 & _ & H3 & _).
  split; [exact Hne|]. split; [exact Hnot|]. split; [exact H1|exact H3].
Defined.

(** ** Explicit registration against discovery *)

(** X9. Between [register_runner] and discovery the later writer wins: a
    name registered by hand is rebound by the next [AbstractFactory()]
    to the class of the last accepted plugin entry of that name, and a
    [register_runner] after the construction rebinds it to the class
    given by hand. *)
Theorem later_writer_wins (eps1 eps2 : list entry_point) (ep : entry_point)
    (cls : pyobj) (c : pyclass) (w : world) :
  forallb load_failure_caught (eps1 ++ ep :: eps2) = true →
  accepted ep = Some cls →
  (∀ ep', ep' ∈ eps2 → is_Some (accepted ep') → ep_name ep' ≠ ep_name ep) →
  inherits_QueryRunner c = true →
  _runners (run_ops [OpRegister (ep_name ep) (Class c);
                     OpConstruct (eps1 ++ ep :: eps2)] w) !! ep_name ep
  = Some cls
  ∧ _runners (run_ops [OpConstruct (eps1 ++ ep :: eps2);
                       OpRegister (ep_name ep) (Class c)] w) !! ep_name ep
    = Some (Class c).
Proof.
  intros Hcaught Ha Hlast Hc.
  assert (∀ w0, register_runner (ep_name ep) (Class c) w0
                = (Return tt,
                   World (<[ep_name ep := Class c]> (_runners w0))
                     (stdout w0) (next_id w0))) as Hreg.
  { intros w0. apply register_runner_accepts. simpl. by rewrite Hc. }
  unfold run_ops. simpl. split.
  - rewrite Hreg. simpl. rewrite AbstractFactory_new_caught by done. simpl.
    by apply register_accepted_last.
  - rewrite Hreg. simpl. apply lookup_insert_eq.
Qed.

Lemma later_writer_wins_witness :
  forallb load_failure_caught ([failing_plugin] ++ couchdb_plugin :: [number_plugin])
  = true
  ∧ accepted couchdb_plugin = Some (Class CouchDBRunner)
  ∧ inherits_QueryRunner MySQLRunner = true
  ∧ _runners (run_ops [OpRegister "couchdb" (Class MySQLRunner);
                       OpConstruct ([failing_plugin] ++ couchdb_plugin :: [number_plugin])]
                initial_world) !! "couchdb"
    = Some (Class CouchDBRunner)
  ∧ _runners (run_ops [OpConstruct ([failing_plugin] ++ couchdb_plugin :: [number_plugin]);
                       OpRegister "couchdb" (Class MySQLRunner)]
                initial_world) !! "couchdb"
    = Some (Class MySQLRunner).
Proof.
  split; [reflexivity|]. split; [reflexivity|]. split; [reflexivity|].
  apply (later_writer_wins [failing_plugin] [number_plugin] couchdb_plugin
           (Class CouchDBRunner) MySQLRunner initial_world).
  - reflexivity.
  - reflexivity.
  - intros ep' Hin. apply list_elem_of_singleton in Hin as ->.
    intros [x Hx]. discriminate.
  - reflexivity.
Defined.

(** ** The closed factory of [src/abstract_factory.py] *)

Lemma default_runners_other (name : string) :
  name ≠ "mongodb" → name ≠ "mysql" → name ≠ "bigquery" →
  default_runners !! name = None.
Proof.
  intros H1 H2 H3. unfold default_runners.
  rewrite !lookup_insert_ne by done. apply lookup_empty.
Qed.

(** X11. The two modules dispatch alike: on the default registry, for
    every name, [AbstractFactory.get_dao] and
    [QueryRunnerFactory.get_query_runner] either both raise a
    [ValueError] or both return a runner, and the two runners give the
    same answer and leave the same dictionary for every configuration. *)
Theorem closed_factory_agrees_with_default_registry (self : AbstractFactory)
    (name : string) (w : world) (next : nat) :
  _runners w = default_runners →
  agree (get_dao self name w).1 (QueryRunnerFactoryPy.get_query_runner name next).1.
Proof.
  intros Hw. unfold QueryRunnerFactoryPy.get_query_runner.
  destruct (String.eqb_spec name "mongodb") as [->|H1].
  { rewrite (get_dao_registered _ _ MongoDBRunner) by (by rewrite Hw).
    by rewrite instantiate_contract. }
  destruct (String.eqb_spec name "mysql") as [->|H2].
  { rewrite (get_dao_registered _ _ MySQLRunner) by (by rewrite Hw).
    by rewrite instantiate_contract. }
  destruct (String.eqb_spec name "bigquery") as [->|H3].
  { rewrite (get_dao_registered _ _ BigQueryRunner) by (by rewrite Hw).
    by rewrite instantiate_contract. }
  rewrite get_dao_missing by (rewrite Hw; by apply default_runners_other).
  done.
Qed.

Lemma closed_factory_agrees_with_default_registry_witness :
  _runners initial_world = default_runners
  ∧ agree (get_dao (Factory 0) "mysql" initial_world).1
      (QueryRunnerFactoryPy.get_query_runner "mysql" 0).1
  ∧ agree (get_dao (Factory 0) "MySQL" initial_world).1
      (QueryRunnerFactoryPy.get_query_runner "MySQL" 0).1.
Proof.
  split; [reflexivity|]. split.
  - apply (closed_factory_agrees_with_default_registry (Factory 0) "mysql"
             initial_world 0). reflexivity.
  - apply (closed_factory_agrees_with_default_registry (Factory 0) "MySQL"
             initial_world 0). reflexivity.
Defined.

(** X12. [get_query_runner] returns a runner exactly for the names
    "mongodb", "mysql" and "bigquery", compared case-sensitively; a call
    that raises creates no object; and two successive calls that return,
    for any two names, give two different objects. *)
Theorem get_query_runner_names_and_instances (name name' : string) (next : nat) :
  (is_Return (QueryRunnerFactoryPy.get_query_runner name next).1 = true
   ↔ name ∈ ["mongodb"; "mysql"; "bigquery"])
  ∧ (is_Return (QueryRunnerFactoryPy.get_query_runner name next).1 = false →
     (QueryRunnerFactoryPy.get_query_runner name next).2 = next)
  ∧ (∀ r1 next1 r2 next2,
       QueryRunnerFactoryPy.get_query_runner name next = (Return r1, next1) →
       QueryRunnerFactoryPy.get_query_runner name' next1 = (Return r2, next2) →
       QueryRunnerFactoryPy.runner_id r1 ≠ QueryRunnerFactoryPy.runner_id r2).
Proof.
  assert (∀ n k r k',
            QueryRunnerFactoryPy.get_query_runner n k = (Return r, k') →
            QueryRunnerFactoryPy.runner_id r = k ∧ k' = S k) as Hret.
  { intros n k r k'. unfold QueryRunnerFactoryPy.get_query_runner.
    repeat (destruct (String.eqb n _); [by intros [= <- <-]|]). discriminate. }
  split; [|split].
  - unfold QueryRunnerFactoryPy.get_query_runner.
    destruct (String.eqb_spec name "mongodb") as [->|H1];
      [split; [intros _; repeat constructor|done]|].
    destruct (String.eqb_spec name "mysql") as [->|H2];
      [split; [intros _; repeat constructor|done]|].
    destruct (String.eqb_spec name "bigquery") as [->|H3];
      [split; [intros _; repeat constructor|done]|].
    simpl. split; [discriminate|]. intros Hin.
    repeat (apply elem_of_cons in Hin as [Hin|Hin]; [done|]).
    by apply elem_of_nil in Hin.
  - unfold QueryRunnerFactoryPy.get_query_runner.
    repeat (destruct (String.eqb name _); [discriminate|]). done.
  - intros r1 next1 r2 next2 [Hid1 ->]%Hret [Hid2 _]%Hret. lia.
Qed.

Lemma get_query_runner_names_and_instances_witness :
  is_Return (QueryRunnerFactoryPy.get_query_runner "BigQuery" 4).1 = false
  ∧ (QueryRunnerFactoryPy.get_query_runner "BigQuery" 4).2 = 4
  ∧ (∀ r1 next1 r2 next2,
       QueryRunnerFactoryPy.get_query_runner "mysql" 4 = (Return r1, next1) →
       QueryRunnerFactoryPy.get_query_runner "mysql" next1 = (Return r2, next2) →
       QueryRunnerFactoryPy.runner_id r1 ≠ QueryRunnerFactoryPy.runner_id r2).
Proof.
  split; [reflexivity|]. split.
  - apply (get_query_runner_names_and_instances "BigQuery" "mysql" 4). reflexivity.
  - apply (get_query_runner_names_and_instances "mysql" "mysql" 4).
Defined.
